(** * Wifi mainline supplicant: the ServiceManagerWrapper JNI bridge

    A shallow embedding of
    [jni/com_android_server_ServiceManagerWrapper.cpp].

    The file holds one function, the native half of
    [ServiceManagerWrapper.nativeWaitForService(String)].  Its body is three
    calls into the platform: one into the managed runtime through [JNIEnv]
    ([GetStringUTFChars]), one into the service manager
    ([AServiceManager_waitForService]) and one into the binder/JNI glue
    ([AIBinder_toJavaBinder]).  None of the three is code of this repository,
    so the embedding keeps them as calls: the function is a tree of platform
    calls, and a [Platform] gives the calls their meaning. *)

From Stdlib Require Import List NArith Bool Lia.
From Stdlib Require Import Strings.String Strings.Ascii Strings.Byte.
Import ListNotations.

Set Implicit Arguments.

(** ** Data crossing the boundary *)

(** A [java.lang.String] is a sequence of UTF-16 code units.  Java strings
    are immutable, so a [jstring] is modelled by the value it refers to;
    [None] is the null reference. *)
Definition jchar := N.
Definition JavaString := list jchar.
Definition jstring := option JavaString.

(** [const char*]: the bytes of a NUL-terminated buffer (the terminator is
    left implicit), or [None] for [nullptr]. *)
Definition cstring := list byte.
Definition const_char_ptr := option cstring.

(** [AIBinder*]: an [AIBinder] stands for one binder node, i.e. one service
    endpoint; [None] is [nullptr]. *)
Record AIBinder : Type := { binder_node : N }.
Definition AIBinder_ptr := option AIBinder.

(** [jobject]: an opaque reference into the managed heap, [None] for null. *)
Record JavaRef : Type := { ref_slot : nat }.
Definition jobject := option JavaRef.

(** [jboolean* isCopy], the out-parameter of [GetStringUTFChars]. *)
Definition jboolean_ptr := option N.

(** ** The platform interface

    The entry points of [jni.h], [android/binder_manager.h] and
    [android/binder_ibinder_jni.h] that matter here.  The bridge uses three
    of them; [ReleaseStringUTFChars] and [AIBinder_fromJavaBinder] are their
    counterparts in the same headers. *)
Inductive call : Type -> Type :=
| GetStringUTFChars (str : jstring) (isCopy : jboolean_ptr)
    : call const_char_ptr
| ReleaseStringUTFChars (str : jstring) (utf : const_char_ptr)
    : call unit
| AServiceManager_waitForService (instance : const_char_ptr)
    : call AIBinder_ptr
| AIBinder_toJavaBinder (binder : AIBinder_ptr)
    : call jobject
| AIBinder_fromJavaBinder (binder : jobject)
    : call AIBinder_ptr.

(** Native code as a tree of platform calls. *)
Inductive jni (R : Type) : Type :=
| ret (r : R)
| invoke (X : Type) (c : call X) (k : X -> jni R).

Arguments ret {R} r.
Arguments invoke {R X} c k.

Fixpoint bind {A B : Type} (m : jni A) (f : A -> jni B) : jni B :=
  match m with
  | ret a => f a
  | invoke c k => invoke c (fun x => bind (k x) f)
  end.

Definition perform {X : Type} (c : call X) : jni X := invoke c ret.

Declare Scope jni_scope.
Delimit Scope jni_scope with jni.
Notation "x <- m ;; k" := (bind m (fun x => k))
  (at level 61, m at next level, right associativity) : jni_scope.
Local Open Scope jni_scope.

(** ** The source function

<<
extern "C" JNIEXPORT jobject JNICALL
    Java_..._nativeWaitForService__Ljava_lang_String_2(
        JNIEnv* env, jobject /* clazz */, jstring serviceNameJni) {
    const char* serviceName = env->GetStringUTFChars(serviceNameJni, nullptr);
    return AIBinder_toJavaBinder(env, AServiceManager_waitForService(serviceName));
}
>>
    [env] is the platform the tree is run against. *)
Definition Java_com_android_server_wifi_mainline_1supplicant_ServiceManagerWrapper_nativeWaitForService__Ljava_lang_String_2
    (clazz : jobject) (serviceNameJni : jstring) : jni jobject :=
  serviceName <- perform (GetStringUTFChars serviceNameJni None) ;;
  binder <- perform (AServiceManager_waitForService serviceName) ;;
  perform (AIBinder_toJavaBinder binder).

Notation "'nativeWaitForService'" :=
  Java_com_android_server_wifi_mainline_1supplicant_ServiceManagerWrapper_nativeWaitForService__Ljava_lang_String_2.

(** ** Running against a platform *)

(** What a call, or a whole native function, does: it returns a value and
    leaves a world, or the platform stops the process with a fault, or it
    never comes back. *)
Inductive outcome (F W X : Type) : Type :=
| Returns (x : X) (w : W)
| Aborts (f : F)
| Blocks.

Arguments Returns {F W X} x w.
Arguments Aborts {F W X} f.
Arguments Blocks {F W X}.

(** A platform: the state the facilities act on (managed heap, pending
    exception, service directory, ...), its fatal errors, and the meaning of
    every call. *)
Record Platform : Type := {
  World : Type;
  Fault : Type;
  handle : forall X : Type, call X -> World -> outcome Fault World X
}.

Arguments handle _ {X} _ _.

Fixpoint run (P : Platform) {R : Type} (p : jni R) (w : World P)
  : outcome (Fault P) (World P) R :=
  match p with
  | ret r => Returns r w
  | invoke c k =>
      match handle P c w with
      | Returns x w' => run P (k x) w'
      | Aborts f => Aborts f
      | Blocks => Blocks
      end
  end.

(** The platform calls a run makes, in order. *)
Inductive invocation : Type :=
| Invoked (X : Type) (c : call X).

Arguments Invoked {X} c.

Fixpoint calls (P : Platform) {R : Type} (p : jni R) (w : World P)
  : list invocation :=
  match p with
  | ret _ => []
  | invoke c k =>
      Invoked c ::
      match handle P c w with
      | Returns x w' => calls P (k x) w'
      | Aborts _ => []
      | Blocks => []
      end
  end.

Definition is_get (i : invocation) : bool :=
  match i with Invoked (GetStringUTFChars _ _) => true | _ => false end.
Definition is_release (i : invocation) : bool :=
  match i with Invoked (ReleaseStringUTFChars _ _) => true | _ => false end.
Definition is_wait (i : invocation) : bool :=
  match i with Invoked (AServiceManager_waitForService _) => true | _ => false end.
Definition is_wait_null (i : invocation) : bool :=
  match i with Invoked (AServiceManager_waitForService None) => true | _ => false end.
Definition is_toJava (i : invocation) : bool :=
  match i with Invoked (AIBinder_toJavaBinder _) => true | _ => false end.

Definition count (f : invocation -> bool) (l : list invocation) : nat :=
  List.length (filter f l).

(** ** The contract of the bridge, in the words of its specification

    "Translate a single managed-runtime call into a single platform call
    and translate the result back": decode the name, wait for the service,
    convert the handle; each facility is used once and its result is handed
    on as it is. *)
Definition and_then {F W A B : Type}
    (o : outcome F W A) (k : A -> W -> outcome F W B) : outcome F W B :=
  match o with
  | Returns a w => k a w
  | Aborts f => Aborts f
  | Blocks => Blocks
  end.

Definition spec_waitForService (P : Platform) (name : jstring) (w : World P)
  : outcome (Fault P) (World P) jobject :=
  and_then (handle P (GetStringUTFChars name None) w) (fun chars w1 =>
  and_then (handle P (AServiceManager_waitForService chars) w1) (fun b w2 =>
  handle P (AIBinder_toJavaBinder b) w2)).

(** ** What the headers promise about the facilities

    The bridge adds nothing to the handles it passes on, so whatever a claim
    says about the service behind a handle rests on the documented behaviour
    of the facilities.  Each promise is a predicate on a platform; a theorem
    names the ones it needs. *)

(** What can be observed of a platform's world: the runtime's encoding of a
    string, the binder registered under an instance name in the service
    directory, and the binder a Java object stands for. *)
Record ServiceView (P : Platform) : Type := {
  utf : JavaString -> cstring;
  registered : World P -> cstring -> option AIBinder;
  proxied : World P -> JavaRef -> option AIBinder
}.

Section Promises.
Variable P : Platform.
Variable V : ServiceView P.

(** binder_ibinder_jni.h, [AIBinder_toJavaBinder]: "If the binder is null,
    null is returned." *)
Definition toJavaBinder_null : Prop :=
  forall w, handle P (AIBinder_toJavaBinder None) w = Returns None w.

(** jni.h, [GetStringUTFChars]: a non-null result holds the characters of
    the string in the runtime's encoding; the service directory is not
    touched. *)
Definition GetStringUTFChars_encodes : Prop :=
  forall s isCopy w chars w',
    handle P (GetStringUTFChars (Some s) isCopy) w = Returns (Some chars) w' ->
    chars = utf V s /\ forall name, registered V w' name = registered V w name.

(** binder_manager.h, [AServiceManager_waitForService]: a service that is
    registered is returned without waiting. *)
Definition waitForService_finds : Prop :=
  forall name w b,
    registered V w name = Some b ->
    exists w', handle P (AServiceManager_waitForService (Some name)) w
               = Returns (Some b) w'.

(** binder_ibinder_jni.h, [AIBinder_toJavaBinder]: a binder is converted
    into a Java object that stands for it. *)
Definition toJavaBinder_proxies : Prop :=
  forall b w, exists r w',
    handle P (AIBinder_toJavaBinder (Some b)) w = Returns (Some r) w'
    /\ proxied V w' r = Some b.

(** binder_ibinder_jni.h, [AIBinder_fromJavaBinder] undoes
    [AIBinder_toJavaBinder]. *)
Definition fromJavaBinder_inverts : Prop :=
  forall b w r w',
    handle P (AIBinder_toJavaBinder b) w = Returns (Some r) w' ->
    exists w'', handle P (AIBinder_fromJavaBinder (Some r)) w' = Returns b w''.
End Promises.

(** ** Two runs compared

    [same_outcome R] relates two outcomes that a caller cannot tell apart:
    the same value (with worlds related by [R]), the same fault, or both
    blocked.  A platform [respects used R] when its facilities in [used]
    cannot tell [R]-related worlds apart. *)
Inductive same_outcome {F W X : Type} (R : W -> W -> Prop)
  : outcome F W X -> outcome F W X -> Prop :=
| same_returns (x : X) (w1 w2 : W) :
    R w1 w2 -> same_outcome R (Returns x w1) (Returns x w2)
| same_aborts (f : F) : same_outcome R (Aborts f) (Aborts f)
| same_blocks : same_outcome R Blocks Blocks.

Definition respects (P : Platform) (used : forall X : Type, call X -> bool)
    (R : World P -> World P -> Prop) : Prop :=
  forall (X : Type) (c : call X) (w1 w2 : World P),
    used X c = true ->
    R w1 w2 -> same_outcome R (handle P c w1) (handle P c w2).

(** Native code that makes no call outside [used]. *)
Fixpoint uses_only (used : forall X : Type, call X -> bool) {A : Type}
    (p : jni A) : Prop :=
  match p with
  | ret _ => True
  | invoke c k => used _ c = true /\ forall x, uses_only used (k x)
  end.

(** The facilities the bridge is written against: decoding, lookup,
    conversion. *)
Definition bridge_facility (X : Type) (c : call X) : bool :=
  match c with
  | GetStringUTFChars _ _ => true
  | AServiceManager_waitForService _ => true
  | AIBinder_toJavaBinder _ => true
  | ReleaseStringUTFChars _ _ => false
  | AIBinder_fromJavaBinder _ => false
  end.

(** ** A reference platform

    A small executable model of the three facilities, used to run the bridge
    on concrete inputs.  It follows the headers: the runtime hands out
    modified-UTF-8 copies of strings and wants them back through
    [ReleaseStringUTFChars]; the service manager knows the registered
    instances and makes a caller wait for the others; the binder glue keeps
    one Java proxy per binder. *)
Module Reference.

Inductive exception : Type :=
| OutOfMemoryError.

Inductive fault : Type :=
| ServiceManagerUnavailable.

Record world : Type := {
  services : list (cstring * AIBinder);  (* the service directory *)
  servicemanager_alive : bool;
  denied : list cstring;                 (* instances this caller may not find *)
  utf_chars : list cstring;              (* buffers handed out, not yet released *)
  proxies : list AIBinder;               (* slot i: the Java proxy of proxies[i] *)
  out_of_memory : bool;
  pending : option exception             (* the pending Java exception *)
}.

Definition byte_of_N (n : N) : byte :=
  match Byte.of_N (n mod 256) with
  | Some b => b
  | None => x00
  end.

(** Modified UTF-8, one UTF-16 code unit at a time: U+0001..U+007F take one
    byte, U+0000 and U+0080..U+07FF two, the rest three. *)
Definition modified_utf8_unit (c : jchar) : list byte :=
  if ((1 <=? c) && (c <=? 127))%N then
    [byte_of_N c]
  else if (c <=? 2047)%N then
    [byte_of_N (N.lor 192 (N.shiftr c 6));
     byte_of_N (N.lor 128 (N.land c 63))]
  else
    [byte_of_N (N.lor 224 (N.land (N.shiftr c 12) 15));
     byte_of_N (N.lor 128 (N.land (N.shiftr c 6) 63));
     byte_of_N (N.lor 128 (N.land c 63))].

Definition modified_utf8 (s : JavaString) : cstring :=
  flat_map modified_utf8_unit s.

Fixpoint cstring_eqb (a b : cstring) : bool :=
  match a, b with
  | [], [] => true
  | x :: a', y :: b' => Byte.eqb x y && cstring_eqb a' b'
  | _, _ => false
  end.

Fixpoint find_service (l : list (cstring * AIBinder)) (name : cstring)
  : option AIBinder :=
  match l with
  | [] => None
  | (n, b) :: l' => if cstring_eqb n name then Some b else find_service l' name
  end.

Definition directory (w : world) (name : cstring) : option AIBinder :=
  if servicemanager_alive w then
    if existsb (cstring_eqb name) (denied w) then None
    else find_service (services w) name
  else None.

Fixpoint slot_of (b : AIBinder) (l : list AIBinder) : option nat :=
  match l with
  | [] => None
  | x :: l' =>
      if (binder_node x =? binder_node b)%N then Some 0
      else option_map S (slot_of b l')
  end.

Fixpoint remove_first (c : cstring) (l : list cstring) : list cstring :=
  match l with
  | [] => []
  | x :: l' => if cstring_eqb x c then l' else x :: remove_first c l'
  end.

Definition with_utf_chars (w : world) (l : list cstring) : world :=
  {| services := services w; servicemanager_alive := servicemanager_alive w;
     denied := denied w;
     utf_chars := l; proxies := proxies w;
     out_of_memory := out_of_memory w; pending := pending w |}.

Definition with_proxies (w : world) (l : list AIBinder) : world :=
  {| services := services w; servicemanager_alive := servicemanager_alive w;
     denied := denied w;
     utf_chars := utf_chars w; proxies := l;
     out_of_memory := out_of_memory w; pending := pending w |}.

Definition with_pending (w : world) (e : exception) : world :=
  {| services := services w; servicemanager_alive := servicemanager_alive w;
     denied := denied w;
     utf_chars := utf_chars w; proxies := proxies w;
     out_of_memory := out_of_memory w; pending := Some e |}.

Definition do_call (X : Type) (c : call X) (w : world) : outcome fault world X :=
  match c in call T return outcome fault world T with
  | GetStringUTFChars None _ => Returns None w
  | GetStringUTFChars (Some s) _ =>
      if out_of_memory w then Returns None (with_pending w OutOfMemoryError)
      else Returns (Some (modified_utf8 s))
                   (with_utf_chars w (modified_utf8 s :: utf_chars w))
  | ReleaseStringUTFChars _ None => Returns tt w
  | ReleaseStringUTFChars _ (Some chars) =>
      Returns tt (with_utf_chars w (remove_first chars (utf_chars w)))
  | AServiceManager_waitForService None => Returns None w
  | AServiceManager_waitForService (Some name) =>
      if servicemanager_alive w then
        if existsb (cstring_eqb name) (denied w) then Returns None w
        else match find_service (services w) name with
             | Some b => Returns (Some b) w
             | None => Blocks
             end
      else Aborts ServiceManagerUnavailable
  | AIBinder_toJavaBinder None => Returns None w
  | AIBinder_toJavaBinder (Some b) =>
      match slot_of b (proxies w) with
      | Some i => Returns (Some {| ref_slot := i |}) w
      | None => Returns (Some {| ref_slot := List.length (proxies w) |})
                        (with_proxies w (proxies w ++ [b]))
      end
  | AIBinder_fromJavaBinder None => Returns None w
  | AIBinder_fromJavaBinder (Some r) =>
      Returns (nth_error (proxies w) (ref_slot r)) w
  end.

Definition platform : Platform :=
  {| World := world; Fault := fault; handle := do_call |}.

Definition view : ServiceView platform :=
  @Build_ServiceView platform
    modified_utf8
    directory
    (fun w r => nth_error (proxies w) (ref_slot r)).

(** Worlds that differ at most in the UTF buffers still handed out. *)
Definition same_services (w1 w2 : world) : Prop :=
  services w1 = services w2
  /\ servicemanager_alive w1 = servicemanager_alive w2
  /\ denied w1 = denied w2
  /\ proxies w1 = proxies w2
  /\ out_of_memory w1 = out_of_memory w2
  /\ pending w1 = pending w2.

(** Literals. *)
Definition java (s : string) : JavaString :=
  map N_of_ascii (list_ascii_of_string s).
Definition chars (s : string) : cstring :=
  map byte_of_ascii (list_ascii_of_string s).

(** A device on which the mainline supplicant has registered. *)
Definition supplicant : AIBinder := {| binder_node := 7 |}.
Definition wifi_mainline_supplicant : string := "wifi_mainline_supplicant".

Definition booted : world :=
  {| services := [(chars wifi_mainline_supplicant, supplicant)];
     servicemanager_alive := true;
     denied := [chars "hidden"];
     utf_chars := [];
     proxies := [];
     out_of_memory := false;
     pending := None |}.

Definition exhausted : world :=
  {| services := services booted; servicemanager_alive := true;
     denied := [];
     utf_chars := []; proxies := []; out_of_memory := true; pending := None |}.

Definition no_servicemanager : world :=
  {| services := []; servicemanager_alive := false;
     denied := [];
     utf_chars := []; proxies := []; out_of_memory := false; pending := None |}.

End Reference.

(** ** A checking runtime

    The reference platform with CheckJNI switched on: a null [jstring] given
    to [GetStringUTFChars] stops the process instead of yielding a null
    buffer.  Every other call is the reference platform's. *)
Module CheckJni.

Inductive fault : Type :=
| JniAbort
| Inherited (f : Reference.fault).

Definition lift {X : Type} (o : outcome Reference.fault Reference.world X)
  : outcome fault Reference.world X :=
  match o with
  | Returns x w => Returns x w
  | Aborts f => Aborts (Inherited f)
  | Blocks => Blocks
  end.

Definition do_call (X : Type) (c : call X) (w : Reference.world)
  : outcome fault Reference.world X :=
  match c in call T return outcome fault Reference.world T with
  | GetStringUTFChars None _ => Aborts JniAbort
  | GetStringUTFChars (Some s) isCopy =>
      lift (Reference.do_call (GetStringUTFChars (Some s) isCopy) w)
  | ReleaseStringUTFChars s utf =>
      lift (Reference.do_call (ReleaseStringUTFChars s utf) w)
  | AServiceManager_waitForService name =>
      lift (Reference.do_call (AServiceManager_waitForService name) w)
  | AIBinder_toJavaBinder b =>
      lift (Reference.do_call (AIBinder_toJavaBinder b) w)
  | AIBinder_fromJavaBinder r =>
      lift (Reference.do_call (AIBinder_fromJavaBinder r) w)
  end.

Definition platform : Platform :=
  {| World := Reference.world; Fault := fault; handle := do_call |}.

End CheckJni.

(** ** More vocabulary for runs *)

Definition is_fromJava (i : invocation) : bool :=
  match i with Invoked (AIBinder_fromJavaBinder _) => true | _ => false end.

(** The three calls as the source writes them: [GetStringUTFChars] with a
    null [isCopy], the lookup, the conversion. *)
Definition written_in_source (i : invocation) : bool :=
  match i with
  | Invoked (GetStringUTFChars _ None) => true
  | Invoked (AServiceManager_waitForService _) => true
  | Invoked (AIBinder_toJavaBinder _) => true
  | _ => false
  end.

(** jni.h: a non-null result of [GetStringUTFChars] is a buffer that native
    code holds until it gives it to [ReleaseStringUTFChars].  [held] counts
    the buffers held in a world: a successful [GetStringUTFChars] adds one,
    a failed one adds none, and the lookup and the conversion leave the
    count alone. *)
Definition counts_held_buffers (P : Platform) (held : World P -> nat) : Prop :=
  (forall s isCopy w chars w',
      handle P (GetStringUTFChars s isCopy) w = Returns (Some chars) w' ->
      held w' = S (held w))
  /\ (forall s isCopy w w',
        handle P (GetStringUTFChars s isCopy) w = Returns None w' ->
        held w' = held w)
  /\ (forall name w b w',
        handle P (AServiceManager_waitForService name) w = Returns b w' ->
        held w' = held w)
  /\ (forall b w r w',
        handle P (AIBinder_toJavaBinder b) w = Returns r w' ->
        held w' = held w).

(** The buffers the bridge holds on to by decoding [serviceName]. *)
Definition buffers_of (serviceName : const_char_ptr) : nat :=
  match serviceName with
  | Some _ => 1
  | None => 0
  end.

(** An observation of the world that the lookup and the conversion leave
    alone (the pending exception of the runtime, say). *)
Definition kept_by_lookup_and_conversion (P : Platform) (T : Type)
    (obs : World P -> T) : Prop :=
  (forall name w b w',
      handle P (AServiceManager_waitForService name) w = Returns b w' ->
      obs w' = obs w)
  /\ (forall b w r w',
        handle P (AIBinder_toJavaBinder b) w = Returns r w' ->
        obs w' = obs w).

(** * Properties *)

(** ** Running trees of calls *)

Lemma run_bind (P : Platform) (A B : Type) (m : jni A) (f : A -> jni B)
    (w : World P) :
  run P (bind m f) w = and_then (run P m w) (fun a w' => run P (f a) w').
Proof.
  revert w; induction m as [a | X c k IH]; intros w; simpl.
  - reflexivity.
  - destruct (handle P c w) as [x w' | e | ]; simpl; auto.
Qed.

Lemma run_perform (P : Platform) (X : Type) (c : call X) (w : World P) :
  run P (perform c) w = handle P c w.
Proof.
  unfold perform; simpl. destruct (handle P c w); reflexivity.
Qed.

(** Facilities that cannot tell related worlds apart cannot make native
    code that uses only them tell the worlds apart. *)
Lemma run_respects (P : Platform) (used : forall X : Type, call X -> bool)
    (R : World P -> World P -> Prop) (HR : respects P used R)
    (A : Type) (p : jni A) :
  uses_only used p ->
  forall w1 w2, R w1 w2 -> same_outcome R (run P p w1) (run P p w2).
Proof.
  induction p as [a | X c k IH]; simpl.
  - intros _ w1 w2 Hw. constructor; assumption.
  - intros [Hc Hk] w1 w2 Hw.
    destruct (HR X c w1 w2 Hc Hw) as [x v1 v2 Hv | e | ].
    + apply IH; [apply Hk | assumption].
    + constructor.
    + constructor.
Qed.

(** ** The bridge, one call at a time *)

Section Bridge.
Variable P : Platform.
Variables (clazz : jobject) (serviceNameJni : jstring).
Variable w : World P.

Lemma run_bridge :
  run P (nativeWaitForService clazz serviceNameJni) w
  = spec_waitForService P serviceNameJni w.
Proof.
  unfold spec_waitForService; simpl.
  destruct (handle P (GetStringUTFChars serviceNameJni None) w)
    as [serviceName w1 | e | ]; simpl; try reflexivity.
  destruct (handle P (AServiceManager_waitForService serviceName) w1)
    as [binder w2 | e | ]; simpl; try reflexivity.
  destruct (handle P (AIBinder_toJavaBinder binder) w2); reflexivity.
Qed.

Lemma calls_bridge :
  calls P (nativeWaitForService clazz serviceNameJni) w
  = Invoked (GetStringUTFChars serviceNameJni None) ::
    match handle P (GetStringUTFChars serviceNameJni None) w with
    | Returns serviceName w1 =>
        Invoked (AServiceManager_waitForService serviceName) ::
        match handle P (AServiceManager_waitForService serviceName) w1 with
        | Returns binder w2 => [Invoked (AIBinder_toJavaBinder binder)]
        | Aborts _ => []
        | Blocks => []
        end
    | Aborts _ => []
    | Blocks => []
    end.
Proof.
  simpl.
  destruct (handle P (GetStringUTFChars serviceNameJni None) w)
    as [serviceName w1 | e | ]; try reflexivity.
  simpl.
  destruct (handle P (AServiceManager_waitForService serviceName) w1)
    as [binder w2 | e | ]; try reflexivity.
  simpl.
  destruct (handle P (AIBinder_toJavaBinder binder) w2); reflexivity.
Qed.

(** The string buffer is never handed back to the runtime. *)
Lemma bridge_never_releases :
  existsb is_release (calls P (nativeWaitForService clazz serviceNameJni) w)
  = false.
Proof.
  rewrite calls_bridge.
  destruct (handle P (GetStringUTFChars serviceNameJni None) w)
    as [serviceName w1 | e | ]; try reflexivity.
  destruct (handle P (AServiceManager_waitForService serviceName) w1);
    reflexivity.
Qed.

Lemma bridge_uses_only :
  uses_only bridge_facility (nativeWaitForService clazz serviceNameJni).
Proof.
  simpl. repeat split.
Qed.
End Bridge.

(** ** The reference platform keeps the promises of the headers *)

Lemma slot_of_sound (b : AIBinder) (l : list AIBinder) (i : nat) :
  Reference.slot_of b l = Some i -> nth_error l i = Some b.
Proof.
  revert i; induction l as [| x l IH]; intros i; simpl.
  - discriminate.
  - destruct (N.eqb_spec (binder_node x) (binder_node b)) as [E | _].
    + intros [= <-]. destruct x, b; simpl in *; subst; reflexivity.
    + destruct (Reference.slot_of b l) as [j |]; simpl; [| discriminate].
      intros [= <-]. simpl. apply IH; reflexivity.
Qed.

Lemma nth_error_snoc (A : Type) (l : list A) (a : A) :
  nth_error (l ++ [a]) (List.length l) = Some a.
Proof.
  induction l as [| x l IH]; simpl; auto.
Qed.

Lemma reference_toJavaBinder_null : toJavaBinder_null Reference.platform.
Proof.
  intros w; reflexivity.
Qed.

Lemma reference_GetStringUTFChars_encodes :
  GetStringUTFChars_encodes Reference.view.
Proof.
  intros s isCopy w chars w'; simpl.
  destruct (Reference.out_of_memory w); intros [= <- <-].
  split; reflexivity.
Qed.

Lemma reference_waitForService_finds : waitForService_finds Reference.view.
Proof.
  intros name w b; simpl. unfold Reference.directory.
  destruct (Reference.servicemanager_alive w); [| discriminate].
  destruct (existsb (Reference.cstring_eqb name) (Reference.denied w));
    [discriminate |].
  intros ->. exists w; reflexivity.
Qed.

Lemma reference_toJavaBinder_proxies : toJavaBinder_proxies Reference.view.
Proof.
  intros b w; simpl.
  destruct (Reference.slot_of b (Reference.proxies w)) as [i |] eqn:E.
  - exists {| ref_slot := i |}, w. split; [reflexivity |].
    simpl. apply slot_of_sound; assumption.
  - eexists; eexists; split; [reflexivity |].
    simpl. apply nth_error_snoc.
Qed.

Lemma reference_fromJavaBinder_inverts :
  fromJavaBinder_inverts Reference.platform.
Proof.
  intros [b |] w r w'; simpl; [| discriminate].
  destruct (Reference.slot_of b (Reference.proxies w)) as [i |] eqn:E;
    intros [= <- <-]; eexists; simpl.
  - rewrite (slot_of_sound _ _ E); reflexivity.
  - rewrite nth_error_snoc; reflexivity.
Qed.

Lemma reference_respects_same_services :
  respects Reference.platform bridge_facility Reference.same_services.
Proof.
  intros X c [s1 a1 d1 u1 p1 o1 e1] [s2 a2 d2 u2 p2 o2 e2] _
         (Hs & Ha & Hd & Hp & Ho & He); simpl in *; subst.
  destruct c as [[s |] isCopy | str [chars |] | [name |] | [b |] | [r |]]; simpl;
    repeat match goal with
           | |- same_outcome _ (if ?b then _ else _) (if ?b then _ else _) =>
               destruct b
           | |- same_outcome _ (match ?x with _ => _ end)
                               (match ?x with _ => _ end) =>
               destruct x
           end;
    constructor; repeat split; reflexivity.
Qed.

(** ** The bridge on the reference platform *)

Example supplicant_is_found :
  run Reference.platform
      (nativeWaitForService None
         (Some (Reference.java Reference.wifi_mainline_supplicant)))
      Reference.booted
  = Returns (Some {| ref_slot := 0 |})
      (Reference.with_proxies
         (Reference.with_utf_chars Reference.booted
            [Reference.chars Reference.wifi_mainline_supplicant])
         [Reference.supplicant]).
Proof. reflexivity. Qed.

Example supplicant_calls :
  calls Reference.platform
      (nativeWaitForService None
         (Some (Reference.java Reference.wifi_mainline_supplicant)))
      Reference.booted
  = [Invoked (GetStringUTFChars
                (Some (Reference.java Reference.wifi_mainline_supplicant)) None);
     Invoked (AServiceManager_waitForService
                (Some (Reference.chars Reference.wifi_mainline_supplicant)));
     Invoked (AIBinder_toJavaBinder (Some Reference.supplicant))].
Proof. reflexivity. Qed.

Example null_name_on_reference :
  calls Reference.platform (nativeWaitForService None None) Reference.booted
  = [Invoked (GetStringUTFChars None None);
     Invoked (AServiceManager_waitForService None);
     Invoked (AIBinder_toJavaBinder None)]
  /\ run Reference.platform (nativeWaitForService None None) Reference.booted
     = Returns None Reference.booted.
Proof. split; reflexivity. Qed.

Example modified_utf8_sample :
  Reference.modified_utf8 [0; 65; 233; 8364]%N
  = [xc0; x80; x41; xc3; xa9; xe2; x82; xac].
Proof. reflexivity. Qed.

(** ** The claims *)

(** C1.  For every non-null service name, the bridge returns exactly what
    the conversion facility makes of what the blocking lookup returns for
    the decoded name: running the source function is running
    [spec_waitForService].  It adds nothing of its own: the runtime is asked
    for the characters once, the lookup and the conversion are each made at
    most once (no retry), and no other call is made. *)
Theorem nativeWaitForService_is_lookup_then_conversion
    (P : Platform) (clazz : jobject) (name : JavaString) (w : World P) :
  run P (nativeWaitForService clazz (Some name)) w
  = spec_waitForService P (Some name) w
  /\ count is_get (calls P (nativeWaitForService clazz (Some name)) w) = 1
  /\ count is_wait (calls P (nativeWaitForService clazz (Some name)) w) <= 1
  /\ count is_toJava (calls P (nativeWaitForService clazz (Some name)) w) <= 1
  /\ List.length (calls P (nativeWaitForService clazz (Some name)) w) <= 3.
Proof.
  split; [apply run_bridge |].
  rewrite calls_bridge. unfold count.
  destruct (handle P (GetStringUTFChars (Some name) None) w)
    as [serviceName w1 | e | ]; simpl; try lia.
  destruct (handle P (AServiceManager_waitForService serviceName) w1)
    as [binder w2 | e | ]; simpl; lia.
Qed.

(** C2.  When the lookup yields no handle (a null [AIBinder*]), the bridge
    returns the null reference, in the world the lookup left: it raises
    nothing of its own.  The null comes from the conversion facility, which
    the header documents to map null to null. *)
Theorem absent_handle_is_returned_as_null
    (P : Platform) (Hnull : toJavaBinder_null P)
    (clazz : jobject) (serviceNameJni : jstring) (w : World P)
    (serviceName : const_char_ptr) (w1 w2 : World P) :
  handle P (GetStringUTFChars serviceNameJni None) w = Returns serviceName w1 ->
  handle P (AServiceManager_waitForService serviceName) w1 = Returns None w2 ->
  run P (nativeWaitForService clazz serviceNameJni) w = Returns None w2.
Proof.
  intros Hget Hwait. rewrite run_bridge. unfold spec_waitForService.
  rewrite Hget; simpl. rewrite Hwait; simpl. apply Hnull.
Qed.

(** The caller may not find "hidden": the lookup returns null, and so does
    the bridge, with no exception pending. *)
Lemma absent_handle_is_returned_as_null_witness :
  run Reference.platform
      (nativeWaitForService None (Some (Reference.java "hidden")))
      Reference.booted
  = Returns None
      (Reference.with_utf_chars Reference.booted [Reference.chars "hidden"])
  /\ Reference.pending
       (Reference.with_utf_chars Reference.booted [Reference.chars "hidden"])
     = None.
Proof.
  split; [| reflexivity].
  apply (@absent_handle_is_returned_as_null
           Reference.platform reference_toJavaBinder_null
           None (Some (Reference.java "hidden")) Reference.booted
           (Some (Reference.chars "hidden"))
           (Reference.with_utf_chars Reference.booted [Reference.chars "hidden"])).
  - reflexivity.
  - reflexivity.
Defined.

(** C3.  The UTF buffer borrowed from the runtime is not handed back before
    the bridge returns: the source has no [ReleaseStringUTFChars] to match
    its [GetStringUTFChars].  On a freshly booted device, which has no buffer
    handed out, the call for "wifi_mainline_supplicant" returns the
    supplicant's object, makes no release call, and leaves the buffer out. *)
Theorem nativeWaitForService_keeps_utf_chars :
  exists (r : JavaRef) (w' : Reference.world),
    run Reference.platform
        (nativeWaitForService None
           (Some (Reference.java Reference.wifi_mainline_supplicant)))
        Reference.booted
    = Returns (Some r) w'
    /\ Reference.utf_chars Reference.booted = []
    /\ Reference.utf_chars w'
       = [Reference.chars Reference.wifi_mainline_supplicant]
    /\ existsb is_release
         (calls Reference.platform
            (nativeWaitForService None
               (Some (Reference.java Reference.wifi_mainline_supplicant)))
            Reference.booted)
       = false.
Proof.
  eexists; eexists. split; [vm_compute; reflexivity |].
  repeat split; reflexivity.
Qed.

(** C4.  Errors of the facilities pass through the bridge as they are.  Once
    the name is decoded: a fault of the lookup is the fault of the bridge;
    when the lookup returns, the outcome of the bridge is the outcome of the
    conversion whatever it is (value and world, with any exception the
    facilities left pending, fault, or no return); and a fault of the bridge
    is always one that the lookup or the conversion produced: the bridge has
    no error of its own. *)
Theorem platform_errors_propagate_unmodified
    (P : Platform) (clazz : jobject) (serviceNameJni : jstring) (w : World P)
    (serviceName : const_char_ptr) (w1 : World P) :
  handle P (GetStringUTFChars serviceNameJni None) w = Returns serviceName w1 ->
  (forall e, handle P (AServiceManager_waitForService serviceName) w1 = Aborts e ->
             run P (nativeWaitForService clazz serviceNameJni) w = Aborts e)
  /\ (forall binder w2,
        handle P (AServiceManager_waitForService serviceName) w1
        = Returns binder w2 ->
        run P (nativeWaitForService clazz serviceNameJni) w
        = handle P (AIBinder_toJavaBinder binder) w2)
  /\ (forall e,
        run P (nativeWaitForService clazz serviceNameJni) w = Aborts e ->
        handle P (AServiceManager_waitForService serviceName) w1 = Aborts e
        \/ exists binder w2,
             handle P (AServiceManager_waitForService serviceName) w1
             = Returns binder w2
             /\ handle P (AIBinder_toJavaBinder binder) w2 = Aborts e).
Proof.
  intros Hget. rewrite run_bridge. unfold spec_waitForService.
  rewrite Hget; simpl.
  repeat split.
  - intros e ->; reflexivity.
  - intros binder w2 ->; reflexivity.
  - intros e.
    destruct (handle P (AServiceManager_waitForService serviceName) w1)
      as [binder w2 | e' | ]; simpl.
    + intros H. right. exists binder, w2. split; [reflexivity | exact H].
    + intros [= ->]. left; reflexivity.
    + discriminate.
Qed.

(** With no service manager to talk to, the lookup stops with
    [ServiceManagerUnavailable], and that is what the caller gets. *)
Lemma platform_errors_propagate_unmodified_witness :
  run Reference.platform
      (nativeWaitForService None
         (Some (Reference.java Reference.wifi_mainline_supplicant)))
      Reference.no_servicemanager
  = Aborts Reference.ServiceManagerUnavailable.
Proof.
  refine (proj1
    (@platform_errors_propagate_unmodified
       Reference.platform None
       (Some (Reference.java Reference.wifi_mainline_supplicant))
       Reference.no_servicemanager
       (Some (Reference.chars Reference.wifi_mainline_supplicant))
       (Reference.with_utf_chars Reference.no_servicemanager
          [Reference.chars Reference.wifi_mainline_supplicant])
       _) Reference.ServiceManagerUnavailable _); reflexivity.
Defined.

(** C5.  The bridge has no timeout of its own.  Once the name is decoded:
    if the wait never returns, neither does the bridge; if the bridge
    returns, the wait has returned, and what the bridge returns was computed
    from the wait's result in the world the wait left; and in every case the
    wait is entered exactly once. *)
Theorem no_return_before_the_wait_returns
    (P : Platform) (clazz : jobject) (serviceNameJni : jstring) (w : World P)
    (serviceName : const_char_ptr) (w1 : World P) :
  handle P (GetStringUTFChars serviceNameJni None) w = Returns serviceName w1 ->
  (handle P (AServiceManager_waitForService serviceName) w1 = Blocks ->
   run P (nativeWaitForService clazz serviceNameJni) w = Blocks)
  /\ (forall result w',
        run P (nativeWaitForService clazz serviceNameJni) w = Returns result w' ->
        exists binder w2,
          handle P (AServiceManager_waitForService serviceName) w1
          = Returns binder w2
          /\ handle P (AIBinder_toJavaBinder binder) w2 = Returns result w')
  /\ count is_wait (calls P (nativeWaitForService clazz serviceNameJni) w) = 1.
Proof.
  intros Hget. rewrite run_bridge, calls_bridge. unfold spec_waitForService.
  rewrite Hget; simpl.
  repeat split.
  - intros ->; reflexivity.
  - intros result w'.
    destruct (handle P (AServiceManager_waitForService serviceName) w1)
      as [binder w2 | e | ]; simpl; try discriminate.
    intros H. exists binder, w2. split; [reflexivity | exact H].
  - unfold count.
    destruct (handle P (AServiceManager_waitForService serviceName) w1);
      reflexivity.
Qed.

(** Nobody registers "nope": the wait never returns, and neither does the
    bridge. *)
Lemma no_return_before_the_wait_returns_witness :
  run Reference.platform
      (nativeWaitForService None (Some (Reference.java "nope")))
      Reference.booted
  = Blocks.
Proof.
  refine (proj1
    (@no_return_before_the_wait_returns
       Reference.platform None (Some (Reference.java "nope")) Reference.booted
       (Some (Reference.chars "nope"))
       (Reference.with_utf_chars Reference.booted [Reference.chars "nope"])
       _) _); reflexivity.
Defined.




(** C7.  Round trip.  When the bridge returns a non-null object, giving that
    object to [AIBinder_fromJavaBinder], in the world the bridge left,
    yields the binder that the lookup produced, and that binder is not
    null. *)
Theorem returned_handle_round_trips
    (P : Platform)
    (Hnull : toJavaBinder_null P) (Hinv : fromJavaBinder_inverts P)
    (clazz : jobject) (serviceNameJni : jstring) (w : World P)
    (r : JavaRef) (w' : World P) :
  run P (nativeWaitForService clazz serviceNameJni) w = Returns (Some r) w' ->
  exists (serviceName : const_char_ptr) (w1 : World P)
         (binder : AIBinder) (w2 w'' : World P),
    handle P (GetStringUTFChars serviceNameJni None) w = Returns serviceName w1
    /\ handle P (AServiceManager_waitForService serviceName) w1
       = Returns (Some binder) w2
    /\ handle P (AIBinder_fromJavaBinder (Some r)) w' = Returns (Some binder) w''.
Proof.
  rewrite run_bridge. unfold spec_waitForService.
  destruct (handle P (GetStringUTFChars serviceNameJni None) w)
    as [serviceName w1 | e | ] eqn:Hget; simpl; try discriminate.
  destruct (handle P (AServiceManager_waitForService serviceName) w1)
    as [[binder |] w2 | e | ] eqn:Hwait; simpl; try discriminate.
  - intros Hjava. destruct (Hinv _ _ _ _ Hjava) as [w'' Hfrom].
    exists serviceName, w1, binder, w2, w''. repeat split; assumption.
  - rewrite Hnull. discriminate.
Qed.

(** On the booted device the object in slot 0 converts back to the
    supplicant's binder. *)
Lemma returned_handle_round_trips_witness :
  exists (serviceName : const_char_ptr) (w1 : Reference.world)
         (binder : AIBinder) (w2 w'' : Reference.world),
    Reference.do_call
      (GetStringUTFChars
         (Some (Reference.java Reference.wifi_mainline_supplicant)) None)
      Reference.booted
    = Returns serviceName w1
    /\ Reference.do_call (AServiceManager_waitForService serviceName) w1
       = Returns (Some binder) w2
    /\ Reference.do_call
         (AIBinder_fromJavaBinder (Some {| ref_slot := 0 |}))
         (Reference.with_proxies
            (Reference.with_utf_chars Reference.booted
               [Reference.chars Reference.wifi_mainline_supplicant])
            [Reference.supplicant])
       = Returns (Some binder) w''.
Proof.
  apply (@returned_handle_round_trips
           Reference.platform
           reference_toJavaBinder_null reference_fromJavaBinder_inverts
           None (Some (Reference.java Reference.wifi_mainline_supplicant))
           Reference.booted).
  reflexivity.
Defined.

(** C8.  The bridge does not look at the name.  Whatever string the caller
    supplies (the empty one, one no service could bear), the runtime is asked
    for its characters, and whatever the runtime answers is the argument of
    the lookup: the first two calls of the run are fixed by the input and
    the runtime's answer alone. *)
Theorem service_name_is_forwarded_unchanged
    (P : Platform) (clazz : jobject) (serviceNameJni : jstring) (w : World P)
    (serviceName : const_char_ptr) (w1 : World P) :
  handle P (GetStringUTFChars serviceNameJni None) w = Returns serviceName w1 ->
  firstn 2 (calls P (nativeWaitForService clazz serviceNameJni) w)
  = [Invoked (GetStringUTFChars serviceNameJni None);
     Invoked (AServiceManager_waitForService serviceName)].
Proof.
  intros Hget. rewrite calls_bridge, Hget. reflexivity.
Qed.

(** The empty name goes to the lookup as the empty C string. *)
Lemma service_name_is_forwarded_unchanged_witness :
  firstn 2 (calls Reference.platform
              (nativeWaitForService None (Some [])) Reference.booted)
  = [Invoked (GetStringUTFChars (Some []) None);
     Invoked (AServiceManager_waitForService (Some []))].
Proof.
  apply (@service_name_is_forwarded_unchanged
           Reference.platform None (Some []) Reference.booted (Some [])
           (Reference.with_utf_chars Reference.booted [[]])).
  reflexivity.
Defined.

(** C9.  No null guard at either boundary.  A null [jstring] is passed to
    [GetStringUTFChars] as it is; when [GetStringUTFChars] returns a null
    buffer, the next call is the lookup, with a null name; and when the
    string is not null and its characters were obtained, the lookup is never
    called with a null name. *)
Theorem no_null_guards
    (P : Platform) (clazz : jobject) (w : World P) :
  hd_error (calls P (nativeWaitForService clazz None) w)
  = Some (Invoked (GetStringUTFChars None None))
  /\ (forall (serviceNameJni : jstring) (w1 : World P),
        handle P (GetStringUTFChars serviceNameJni None) w = Returns None w1 ->
        nth_error (calls P (nativeWaitForService clazz serviceNameJni) w) 1
        = Some (Invoked (AServiceManager_waitForService None)))
  /\ (forall (name : JavaString) (serviceName : cstring) (w1 : World P),
        handle P (GetStringUTFChars (Some name) None) w
        = Returns (Some serviceName) w1 ->
        existsb is_wait_null
          (calls P (nativeWaitForService clazz (Some name)) w)
        = false).
Proof.
  repeat split.
  - intros serviceNameJni w1 Hget. rewrite calls_bridge, Hget. reflexivity.
  - intros name serviceName w1 Hget. rewrite calls_bridge, Hget. simpl.
    destruct (handle P (AServiceManager_waitForService (Some serviceName)) w1);
      reflexivity.
Qed.

(** With the heap exhausted the runtime has no buffer to give: the lookup
    is still called, with a null name. *)
Lemma no_null_guards_witness :
  nth_error (calls Reference.platform
               (nativeWaitForService None (Some (Reference.java "nope")))
               Reference.exhausted) 1
  = Some (Invoked (AServiceManager_waitForService None)).
Proof.
  refine (proj1 (proj2 (@no_null_guards Reference.platform None Reference.exhausted))
            (Some (Reference.java "nope"))
            (Reference.with_pending Reference.exhausted
               Reference.OutOfMemoryError) _).
  reflexivity.
Defined.

(** C10.  The bridge has no state of its own.  On a platform whose decoding,
    lookup and conversion facilities cannot tell two worlds apart (they are
    functions of what the two worlds share), two calls with the same name,
    one in each world, cannot be told apart either: both return the same
    value, or stop with the same fault, or both block, and the worlds they
    leave are again indistinguishable.  The class argument plays no part. *)
Theorem equal_names_give_equal_results
    (P : Platform) (R : World P -> World P -> Prop)
    (HR : respects P bridge_facility R)
    (clazz1 clazz2 : jobject) (serviceNameJni : jstring) (w1 w2 : World P) :
  R w1 w2 ->
  same_outcome R
    (run P (nativeWaitForService clazz1 serviceNameJni) w1)
    (run P (nativeWaitForService clazz2 serviceNameJni) w2).
Proof.
  intros Hw.
  apply (run_respects HR (nativeWaitForService clazz1 serviceNameJni)
           (bridge_uses_only clazz1 serviceNameJni) _ _ Hw).
Qed.

(** Two worlds of the booted device that differ in the buffers handed out:
    the call for the supplicant gives the same outcome in both. *)
Lemma equal_names_give_equal_results_witness :
  same_outcome Reference.same_services
    (run Reference.platform
       (nativeWaitForService None
          (Some (Reference.java Reference.wifi_mainline_supplicant)))
       Reference.booted)
    (run Reference.platform
       (nativeWaitForService (Some {| ref_slot := 3 |})
          (Some (Reference.java Reference.wifi_mainline_supplicant)))
       (Reference.with_utf_chars Reference.booted [Reference.chars "nope"])).
Proof.
  apply (@equal_names_give_equal_results
           Reference.platform Reference.same_services
           reference_respects_same_services).
  repeat split.
Defined.

(** ** Further properties of the bridge *)

Lemma reference_counts_held_buffers :
  counts_held_buffers Reference.platform
    (fun w => List.length (Reference.utf_chars w)).
Proof.
  repeat split.
  - intros [s |] isCopy w chars w'; simpl; [| discriminate].
    destruct (Reference.out_of_memory w); intros [= <- <-]; reflexivity.
  - intros [s |] isCopy w w'; simpl.
    + destruct (Reference.out_of_memory w); [| discriminate].
      intros [= <-]; reflexivity.
    + intros [= <-]; reflexivity.
  - intros [name |] w b w'; simpl.
    + destruct (Reference.servicemanager_alive w); [| discriminate].
      destruct (existsb (Reference.cstring_eqb name) (Reference.denied w)).
      * intros [= _ <-]; reflexivity.
      * destruct (Reference.find_service (Reference.services w) name);
          [intros [= _ <-]; reflexivity | discriminate].
    + intros [= _ <-]; reflexivity.
  - intros [b |] w r w'; simpl.
    + destruct (Reference.slot_of b (Reference.proxies w));
        intros [= _ <-]; reflexivity.
    + intros [= _ <-]; reflexivity.
Qed.

(** X1.  Order and data flow of a run in which the decoding and the lookup
    return: the bridge makes exactly three calls, in the order of the
    source, and each gets what the one before returned: the lookup gets
    the buffer of [GetStringUTFChars], the conversion gets the binder of the
    lookup. *)
Theorem calls_follow_the_source
    (P : Platform) (clazz : jobject) (serviceNameJni : jstring) (w : World P)
    (serviceName : const_char_ptr) (w1 : World P)
    (binder : AIBinder_ptr) (w2 : World P) :
  handle P (GetStringUTFChars serviceNameJni None) w = Returns serviceName w1 ->
  handle P (AServiceManager_waitForService serviceName) w1 = Returns binder w2 ->
  calls P (nativeWaitForService clazz serviceNameJni) w
  = [Invoked (GetStringUTFChars serviceNameJni None);
     Invoked (AServiceManager_waitForService serviceName);
     Invoked (AIBinder_toJavaBinder binder)].
Proof.
  intros Hget Hwait. rewrite calls_bridge, Hget, Hwait. reflexivity.
Qed.

(** A caller that may not find "hidden": the conversion is still called,
    with the null binder. *)
Lemma calls_follow_the_source_witness :
  calls Reference.platform
    (nativeWaitForService None (Some (Reference.java "hidden")))
    Reference.booted
  = [Invoked (GetStringUTFChars (Some (Reference.java "hidden")) None);
     Invoked (AServiceManager_waitForService (Some (Reference.chars "hidden")));
     Invoked (AIBinder_toJavaBinder None)].
Proof.
  apply (@calls_follow_the_source
           Reference.platform None (Some (Reference.java "hidden"))
           Reference.booted (Some (Reference.chars "hidden"))
           (Reference.with_utf_chars Reference.booted [Reference.chars "hidden"])
           None
           (Reference.with_utf_chars Reference.booted [Reference.chars "hidden"])).
  - reflexivity.
  - reflexivity.
Defined.

(** X2.  When [GetStringUTFChars] itself does not return, nothing else
    happens: if it stops with a fault, the bridge stops with that fault; if
    it never returns, neither does the bridge; in both cases the lookup and
    the conversion are never called. *)
Theorem failed_decoding_ends_the_call
    (P : Platform) (clazz : jobject) (serviceNameJni : jstring) (w : World P) :
  (forall e,
      handle P (GetStringUTFChars serviceNameJni None) w = Aborts e ->
      run P (nativeWaitForService clazz serviceNameJni) w = Aborts e
      /\ calls P (nativeWaitForService clazz serviceNameJni) w
         = [Invoked (GetStringUTFChars serviceNameJni None)])
  /\ (handle P (GetStringUTFChars serviceNameJni None) w = Blocks ->
      run P (nativeWaitForService clazz serviceNameJni) w = Blocks
      /\ calls P (nativeWaitForService clazz serviceNameJni) w
         = [Invoked (GetStringUTFChars serviceNameJni None)]).
Proof.
  rewrite run_bridge, calls_bridge. unfold spec_waitForService.
  split.
  - intros e ->. split; reflexivity.
  - intros ->. split; reflexivity.
Qed.

(** Under CheckJNI a null name stops the process in [GetStringUTFChars];
    the service manager is never asked. *)
Lemma failed_decoding_ends_the_call_witness :
  run CheckJni.platform (nativeWaitForService None None) Reference.booted
  = Aborts CheckJni.JniAbort
  /\ calls CheckJni.platform (nativeWaitForService None None) Reference.booted
     = [Invoked (GetStringUTFChars None None)].
Proof.
  refine (proj1 (@failed_decoding_ends_the_call
                   CheckJni.platform None None Reference.booted)
            CheckJni.JniAbort _).
  reflexivity.
Defined.

(** X3.  A lookup that does not return a value is not converted: when the
    lookup stops with a fault or never returns, the run consists of the
    decoding and the lookup, and [AIBinder_toJavaBinder] is not called. *)
Theorem failed_lookup_is_not_converted
    (P : Platform) (clazz : jobject) (serviceNameJni : jstring) (w : World P)
    (serviceName : const_char_ptr) (w1 : World P) :
  handle P (GetStringUTFChars serviceNameJni None) w = Returns serviceName w1 ->
  (forall binder w2,
      handle P (AServiceManager_waitForService serviceName) w1
      <> Returns binder w2) ->
  calls P (nativeWaitForService clazz serviceNameJni) w
  = [Invoked (GetStringUTFChars serviceNameJni None);
     Invoked (AServiceManager_waitForService serviceName)]
  /\ count is_toJava (calls P (nativeWaitForService clazz serviceNameJni) w) = 0.
Proof.
  intros Hget Hwait. rewrite calls_bridge, Hget.
  destruct (handle P (AServiceManager_waitForService serviceName) w1)
    as [binder w2 | e | ].
  - exfalso. apply (Hwait binder w2). reflexivity.
  - split; reflexivity.
  - split; reflexivity.
Qed.

(** Without a service manager the lookup stops with a fault; no Java object
    is asked for. *)
Lemma failed_lookup_is_not_converted_witness :
  calls Reference.platform
    (nativeWaitForService None
       (Some (Reference.java Reference.wifi_mainline_supplicant)))
    Reference.no_servicemanager
  = [Invoked (GetStringUTFChars
                (Some (Reference.java Reference.wifi_mainline_supplicant)) None);
     Invoked (AServiceManager_waitForService
                (Some (Reference.chars Reference.wifi_mainline_supplicant)))]
  /\ count is_toJava
       (calls Reference.platform
          (nativeWaitForService None
             (Some (Reference.java Reference.wifi_mainline_supplicant)))
          Reference.no_servicemanager)
     = 0.
Proof.
  apply (@failed_lookup_is_not_converted
           Reference.platform None
           (Some (Reference.java Reference.wifi_mainline_supplicant))
           Reference.no_servicemanager
           (Some (Reference.chars Reference.wifi_mainline_supplicant))
           (Reference.with_utf_chars Reference.no_servicemanager
              [Reference.chars Reference.wifi_mainline_supplicant])).
  - reflexivity.
  - intros binder w2. simpl. discriminate.
Defined.

(** X4.  The bridge returns exactly when the three facilities return one
    after the other, and then with the conversion's value and world.  This
    holds for a null name as for any other: the bridge itself never refuses
    a call and never gives up on one. *)
Theorem returns_iff_the_facilities_return
    (P : Platform) (clazz : jobject) (serviceNameJni : jstring) (w : World P)
    (result : jobject) (w' : World P) :
  run P (nativeWaitForService clazz serviceNameJni) w = Returns result w'
  <-> exists (serviceName : const_char_ptr) (w1 : World P)
             (binder : AIBinder_ptr) (w2 : World P),
        handle P (GetStringUTFChars serviceNameJni None) w
        = Returns serviceName w1
        /\ handle P (AServiceManager_waitForService serviceName) w1
           = Returns binder w2
        /\ handle P (AIBinder_toJavaBinder binder) w2 = Returns result w'.
Proof.
  rewrite run_bridge. unfold spec_waitForService. split.
  - destruct (handle P (GetStringUTFChars serviceNameJni None) w)
      as [serviceName w1 | e | ] eqn:Hget; simpl; try discriminate.
    destruct (handle P (AServiceManager_waitForService serviceName) w1)
      as [binder w2 | e | ] eqn:Hwait; simpl; try discriminate.
    intros Hjava. exists serviceName, w1, binder, w2. auto.
  - intros (serviceName & w1 & binder & w2 & Hget & Hwait & Hjava).
    rewrite Hget; simpl. rewrite Hwait; simpl. exact Hjava.
Qed.

(** X5.  What a call costs the runtime.  On a platform that counts the UTF
    buffers native code holds, a call that returns leaves one more buffer
    held than before when the name was decoded, and as many as before when
    [GetStringUTFChars] gave a null buffer; nothing in the bridge gives a
    buffer back. *)
Theorem returning_call_holds_its_buffer
    (P : Platform) (held : World P -> nat) (Hheld : counts_held_buffers P held)
    (clazz : jobject) (serviceNameJni : jstring) (w : World P)
    (serviceName : const_char_ptr) (w1 : World P)
    (result : jobject) (w' : World P) :
  handle P (GetStringUTFChars serviceNameJni None) w = Returns serviceName w1 ->
  run P (nativeWaitForService clazz serviceNameJni) w = Returns result w' ->
  held w' = held w + buffers_of serviceName.
Proof.
  destruct Hheld as (Hsome & Hnone & Hwait & Hjava).
  intros Hget. rewrite run_bridge. unfold spec_waitForService.
  rewrite Hget; simpl.
  destruct (handle P (AServiceManager_waitForService serviceName) w1)
    as [binder w2 | e | ] eqn:Elookup; simpl; try discriminate.
  intros Econv.
  rewrite (Hjava _ _ _ _ Econv), (Hwait _ _ _ _ Elookup).
  destruct serviceName as [chars |]; simpl.
  - rewrite (Hsome _ _ _ _ _ Hget). lia.
  - rewrite (Hnone _ _ _ _ Hget). lia.
Qed.

(** On the booted device, which holds no buffer, the call for the supplicant
    returns with one buffer held. *)
Lemma returning_call_holds_its_buffer_witness :
  List.length
    (Reference.utf_chars
       (Reference.with_proxies
          (Reference.with_utf_chars Reference.booted
             [Reference.chars Reference.wifi_mainline_supplicant])
          [Reference.supplicant]))
  = List.length (Reference.utf_chars Reference.booted) + 1.
Proof.
  apply (@returning_call_holds_its_buffer
           Reference.platform
           (fun w => List.length (Reference.utf_chars w))
           reference_counts_held_buffers
           None (Some (Reference.java Reference.wifi_mainline_supplicant))
           Reference.booted
           (Some (Reference.chars Reference.wifi_mainline_supplicant))
           (Reference.with_utf_chars Reference.booted
              [Reference.chars Reference.wifi_mainline_supplicant])
           (Some {| ref_slot := 0 |})).
  - reflexivity.
  - reflexivity.
Defined.

(** X6.  What the bridge never does.  On every platform and for every
    input, each call of a run is one of the three the source writes
    ([GetStringUTFChars] always with a null [isCopy]); the run starts with
    [GetStringUTFChars] on the caller's string, has at most three calls,
    and contains neither [ReleaseStringUTFChars] nor
    [AIBinder_fromJavaBinder]. *)
Theorem only_the_source_calls_are_made
    (P : Platform) (clazz : jobject) (serviceNameJni : jstring) (w : World P) :
  forallb written_in_source
    (calls P (nativeWaitForService clazz serviceNameJni) w) = true
  /\ hd_error (calls P (nativeWaitForService clazz serviceNameJni) w)
     = Some (Invoked (GetStringUTFChars serviceNameJni None))
  /\ List.length (calls P (nativeWaitForService clazz serviceNameJni) w) <= 3
  /\ existsb is_release
       (calls P (nativeWaitForService clazz serviceNameJni) w) = false
  /\ existsb is_fromJava
       (calls P (nativeWaitForService clazz serviceNameJni) w) = false.
Proof.
  rewrite calls_bridge.
  destruct (handle P (GetStringUTFChars serviceNameJni None) w)
    as [serviceName w1 | e | ]; simpl; try (repeat split; lia).
  destruct (handle P (AServiceManager_waitForService serviceName) w1)
    as [binder w2 | e | ]; simpl; repeat split; lia.
Qed.

Lemma reference_keeps_pending :
  kept_by_lookup_and_conversion Reference.platform Reference.pending.
Proof.
  split.
  - intros [name |] w b w'; simpl.
    + destruct (Reference.servicemanager_alive w); [| discriminate].
      destruct (existsb (Reference.cstring_eqb name) (Reference.denied w)).
      * intros [= _ <-]; reflexivity.
      * destruct (Reference.find_service (Reference.services w) name);
          [intros [= _ <-]; reflexivity | discriminate].
    + intros [= _ <-]; reflexivity.
  - intros [b |] w r w'; simpl.
    + destruct (Reference.slot_of b (Reference.proxies w));
        intros [= _ <-]; reflexivity.
    + intros [= _ <-]; reflexivity.
Qed.

(** X7.  The bridge neither checks nor clears what the decoding leaves
    behind.  Whatever part of the world the lookup and the conversion leave
    alone is, when the bridge returns, as [GetStringUTFChars] left it; so an
    exception that a failed decoding left pending is still pending for the
    caller. *)
Theorem state_left_by_decoding_reaches_the_caller
    (P : Platform) (T : Type) (obs : World P -> T)
    (Hkept : kept_by_lookup_and_conversion P obs)
    (clazz : jobject) (serviceNameJni : jstring) (w : World P)
    (serviceName : const_char_ptr) (w1 : World P)
    (result : jobject) (w' : World P) :
  handle P (GetStringUTFChars serviceNameJni None) w = Returns serviceName w1 ->
  run P (nativeWaitForService clazz serviceNameJni) w = Returns result w' ->
  obs w' = obs w1.
Proof.
  destruct Hkept as [Hwait Hjava].
  intros Hget. rewrite run_bridge. unfold spec_waitForService.
  rewrite Hget; simpl.
  destruct (handle P (AServiceManager_waitForService serviceName) w1)
    as [binder w2 | e | ] eqn:Elookup; simpl; try discriminate.
  intros Econv.
  rewrite (Hjava _ _ _ _ Econv). apply (Hwait _ _ _ _ Elookup).
Qed.

(** With the heap exhausted, [GetStringUTFChars] leaves an
    [OutOfMemoryError] pending; the bridge returns with it still pending. *)
Lemma state_left_by_decoding_reaches_the_caller_witness :
  Reference.pending
    (Reference.with_pending Reference.exhausted Reference.OutOfMemoryError)
  = Some Reference.OutOfMemoryError
  /\ run Reference.platform
       (nativeWaitForService None (Some (Reference.java "nope")))
       Reference.exhausted
     = Returns None
         (Reference.with_pending Reference.exhausted Reference.OutOfMemoryError).
Proof.
  split; [| reflexivity].
  apply (@state_left_by_decoding_reaches_the_caller
           Reference.platform (option Reference.exception) Reference.pending
           reference_keeps_pending
           None (Some (Reference.java "nope")) Reference.exhausted
           None
           (Reference.with_pending Reference.exhausted Reference.OutOfMemoryError)
           None
           (Reference.with_pending Reference.exhausted Reference.OutOfMemoryError)).
  - reflexivity.
  - reflexivity.
Defined.
